(** * Social Insecurity: the form declarations of [social_insecurity/forms.py]

    The source file declares the forms of the application as WTForms field
    declarations, each with an ordered list of validators.  This development
    embeds

    - the Python string operations the validators rely on ([Py]),
    - the validation engine of the framework the declarations are written
      against: [Field.validate], the validators of [wtforms.validators] and
      of [flask_wtf.file] ([WTForms]),
    - the declarations of [forms.py] themselves, constant by constant and
      field by field ([Forms]),

    and then states the properties of the specification against them.

    Text is modelled as [string]: a sequence of characters with codes 0..255,
    one [ascii] per character, so that [len] counts characters. *)

From Stdlib Require Import String Ascii List ZArith Lia Bool Permutation.
From Stdlib Require Import DecimalString.
Import ListNotations.

Local Open Scope string_scope.
Local Open Scope Z_scope.

(** ** Python strings *)

Module Py.

(** [len(s)] *)
Definition len (s : string) : Z := Z.of_nat (String.length s).

Definition code (c : ascii) : Z := Z.of_nat (nat_of_ascii c).

(** [c.isspace()] for the characters below 256: tab, line feed, vertical tab,
    form feed, carriage return, the four separators 0x1c..0x1f, space,
    next-line (0x85) and no-break space (0xa0). *)
Definition isspace (c : ascii) : bool :=
  let n := code c in
  ((9 <=? n) && (n <=? 13)) || ((28 <=? n) && (n <=? 32))
  || (n =? 133) || (n =? 160).

(** [s.lstrip()] *)
Fixpoint lstrip (s : string) : string :=
  match s with
  | EmptyString => EmptyString
  | String c s' => if isspace c then lstrip s' else s
  end.

Fixpoint rev (s : string) : string :=
  match s with
  | EmptyString => EmptyString
  | String c s' => rev s' ++ String c EmptyString
  end.

(** [s.rstrip()] *)
Definition rstrip (s : string) : string := rev (lstrip (rev s)).

(** [s.strip()] *)
Definition strip (s : string) : string := rstrip (lstrip s).

(** [c.lower()] for the characters below 256: A..Z and the upper-case
    letters of Latin-1 (0xc0..0xde without the multiplication sign 0xd7). *)
Definition lower_char (c : ascii) : ascii :=
  let n := code c in
  if ((65 <=? n) && (n <=? 90))
     || ((192 <=? n) && (n <=? 222) && negb (n =? 215))
  then ascii_of_nat (Z.to_nat (n + 32))
  else c.

(** [s.lower()] *)
Fixpoint lower (s : string) : string :=
  match s with
  | EmptyString => EmptyString
  | String c s' => String (lower_char c) (lower s')
  end.

(** [s.endswith(p)] *)
Definition endswith (s p : string) : bool := String.prefix (rev p) (rev s).

(** [str(n)], which is also what an f-string writes for [{n}]. *)
Definition str (n : Z) : string := NilZero.string_of_int (Z.to_int n).

(** [sep.join(l)] *)
Definition join (sep : string) (l : list string) : string :=
  String.concat sep l.

(** Truth value of a string: [bool(s)]. *)
Definition nonempty (s : string) : bool :=
  match s with EmptyString => false | _ => true end.

(** A string made of whitespace only (the empty string included). *)
Fixpoint all_space (s : string) : bool :=
  match s with
  | EmptyString => true
  | String c s' => isspace c && all_space s'
  end.

End Py.

(** ** The validation engine of the framework

    Framework semantics: [wtforms.fields.core.Field], [wtforms.validators]
    (WTForms 3) and [flask_wtf.file] (Flask-WTF 1), the packages [forms.py]
    imports its fields and validators from. *)

Module WTForms.

(** An uploaded file, [werkzeug.datastructures.FileStorage]: its client-side
    file name and the number of bytes [len(f.read())] returns. *)
Record FileStorage : Set := mkFile { filename : string; size : Z }.

(** What [field.data] can hold for the fields of this application. *)
Inductive value : Set :=
| PyNone
| PyStr (s : string)
| PyFile (f : FileStorage).

(** Truth value of [field.data]: [None] and the empty string are false, and
    so is a [FileStorage] without file name ([FileStorage.__bool__]). *)
Definition truthy (v : value) : bool :=
  match v with
  | PyNone => false
  | PyStr s => Py.nonempty s
  | PyFile f => Py.nonempty (filename f)
  end.

(** [a == b] on field data.  [FileStorage] defines no [__eq__], and two
    fields never hold the same upload object. *)
Definition value_eqb (a b : value) : bool :=
  match a, b with
  | PyNone, PyNone => true
  | PyStr s, PyStr t => String.eqb s t
  | _, _ => false
  end.

(** The form a validator receives: the data of its fields by name, in
    declaration order. *)
Definition form : Set := list (string * value).

(** [form[name]]; [None] stands for [KeyError]. *)
Fixpoint getitem (fm : form) (name : string) : option value :=
  match fm with
  | [] => None
  | (k, v) :: fm' => if String.eqb k name then Some v else getitem fm' name
  end.

(** The regular expressions of [forms.py] all have the shape [^[...]+$]. *)
Inductive class_item : Set :=
| Range (lo hi : ascii)
| Single (c : ascii).

Inductive regex : Set :=
| AnchoredClassPlus (cls : list class_item).

Definition in_item (c : ascii) (i : class_item) : bool :=
  match i with
  | Range lo hi => (Py.code lo <=? Py.code c) && (Py.code c <=? Py.code hi)
  | Single d => Ascii.eqb c d
  end.

Definition in_class (cls : list class_item) (c : ascii) : bool :=
  existsb (in_item c) cls.

Fixpoint drop_class (cls : list class_item) (s : string) : string :=
  match s with
  | EmptyString => EmptyString
  | String c s' => if in_class cls c then drop_class cls s' else s
  end.

Definition newline : string := String (ascii_of_nat 10) EmptyString.

(** [regex.match(s)] is not [None]: one or more characters of the class from
    the start of [s], then the end of [s] or a single line feed before it
    (what [$] accepts without [re.MULTILINE]). *)
Definition re_match (r : regex) (s : string) : bool :=
  match r with
  | AnchoredClassPlus cls =>
      match s with
      | EmptyString => false
      | String c s' =>
          in_class cls c
          && (let rest := drop_class cls s' in
              String.eqb rest EmptyString || String.eqb rest newline)
      end
  end.

(** The validators [forms.py] uses.  [message = None] selects the default
    message of the validator. *)
Inductive validator : Set :=
| DataRequired (message : option string)
| Length (min max : Z) (message : option string)
| Regexp (re : regex) (message : option string)
| EqualTo (fieldname : string) (message : option string)
| FileAllowed (upload_set : list string) (message : option string)
| FileSize (max_size min_size : Z) (message : option string)
| validate_not_empty.

(** What a validator call can raise.  [TypeError] and [AttributeError] are
    the exceptions of a text validator applied to an uploaded file; the
    engine does not catch them. *)
Inductive raised : Set :=
| ValidationError (msg : string)
| StopValidation (msg : string)
| TypeError
| AttributeError.

(** [ngettext(singular, plural, n)] without a translation catalogue. *)
Definition ngettext (singular plural : string) (n : Z) : string :=
  if n =? 1 then singular else plural.

(** Default message of [Length], after [% dict(min=.., max=..)]. *)
Definition length_message (min max : Z) : string :=
  if max =? -1 then
    "Field must be at least " ++ Py.str min ++
    ngettext " character long." " characters long." min
  else if min =? -1 then
    "Field cannot be longer than " ++ Py.str max ++
    ngettext " character." " characters." max
  else if min =? max then
    "Field must be exactly " ++ Py.str max ++
    ngettext " character long." " characters long." max
  else
    "Field must be between " ++ Py.str min ++ " and " ++ Py.str max ++
    " characters long.".

(** [default if message is None else message] *)
Definition or_default (message : option string) (default : string) : string :=
  match message with Some m => m | None => default end.

(** [message or default], as the file validators write it: an empty message
    gives way to the default as well. *)
Definition or_falsy (message : option string) (default : string) : string :=
  match message with
  | Some m => if Py.nonempty m then m else default
  | None => default
  end.

(** One validator call, [validator(form, field)].  The call reads
    [field.data], may rewrite [field.errors] ([DataRequired] empties it before
    it raises) and either returns ([None]) or raises.

    A custom message of [Length] and [EqualTo] goes through Python's [%]
    with a dict; the messages of [forms.py] contain no [%], so they come out
    unchanged (see [messages_have_no_percent]). *)
Definition call (v : validator) (fm : form) (data : value)
    (errors : list string) : list string * option raised :=
  match v with
  | DataRequired message =>
      (* if field.data and (not isinstance(field.data, str)
                            or field.data.strip()): return *)
      if truthy data
         && match data with
            | PyStr s => Py.nonempty (Py.strip s)
            | _ => true
            end
      then (errors, None)
      else ([], Some (StopValidation
                        (or_default message "This field is required.")))
  | Length min max message =>
      (* length = field.data and len(field.data) or 0 *)
      if truthy data then
        match data with
        | PyStr s =>
            let length := Py.len s in
            if (min <=? length) && ((max =? -1) || (length <=? max))
            then (errors, None)
            else (errors, Some (ValidationError
                                  (or_default message (length_message min max))))
        | _ => (errors, Some TypeError)
        end
      else
        if (min <=? 0) && ((max =? -1) || (0 <=? max))
        then (errors, None)
        else (errors, Some (ValidationError
                              (or_default message (length_message min max))))
  | Regexp re message =>
      (* match = self.regex.match(field.data or "") *)
      if truthy data then
        match data with
        | PyStr s =>
            if re_match re s then (errors, None)
            else (errors, Some (ValidationError
                                  (or_default message "Invalid input.")))
        | _ => (errors, Some TypeError)
        end
      else
        if re_match re EmptyString then (errors, None)
        else (errors, Some (ValidationError
                              (or_default message "Invalid input.")))
  | EqualTo fieldname message =>
      match getitem fm fieldname with
      | None =>
          (errors, Some (ValidationError
                           ("Invalid field name '" ++ fieldname ++ "'.")))
      | Some other =>
          if value_eqb data other then (errors, None)
          else (errors, Some (ValidationError
                  (or_default message
                     ("Field must be equal to " ++ fieldname ++ "."))))
      end
  | FileAllowed upload_set message =>
      (* if not (isinstance(field.data, FileStorage) and field.data): return *)
      match data with
      | PyFile f =>
          if Py.nonempty (filename f) then
            let name := Py.lower (filename f) in
            if existsb (fun x => Py.endswith name ("." ++ x)) upload_set
            then (errors, None)
            else (errors, Some (StopValidation
                    (or_falsy message
                       ("File does not have an approved extension: "
                        ++ Py.join ", " upload_set))))
          else (errors, None)
      | _ => (errors, None)
      end
  | FileSize max_size min_size message =>
      match data with
      | PyFile f =>
          if Py.nonempty (filename f) then
            let file_size := size f in
            if (file_size <? min_size) || (max_size <? file_size)
            then (errors, Some (ValidationError
                    (or_falsy message
                       ("File must be between " ++ Py.str min_size ++ " and "
                        ++ Py.str max_size ++ " bytes."))))
            else (errors, None)
          else (errors, None)
      | _ => (errors, None)
      end
  | validate_not_empty =>
      (* if not field.data or not field.data.strip(): raise ... *)
      if truthy data then
        match data with
        | PyStr s =>
            if Py.nonempty (Py.strip s) then (errors, None)
            else (errors, Some (ValidationError
                    "This field cannot be empty or contain only whitespace"))
        | _ => (errors, Some AttributeError)
        end
      else (errors, Some (ValidationError
              "This field cannot be empty or contain only whitespace"))
  end.

(** How a validation chain ends. *)
Inductive chain_end : Set :=
| Completed
| Stopped
| Uncaught (e : raised).

(** [Field._run_validation_chain]: the validators run in order;
    [ValidationError] appends its message and goes on, [StopValidation]
    appends its message (when it has one) and ends the chain. *)
Fixpoint _run_validation_chain (fm : form) (data : value)
    (validators : list validator) (errors : list string)
    : list string * chain_end :=
  match validators with
  | [] => (errors, Completed)
  | v :: rest =>
      match call v fm data errors with
      | (errors', None) => _run_validation_chain fm data rest errors'
      | (errors', Some (ValidationError msg)) =>
          _run_validation_chain fm data rest (errors' ++ [msg])%list
      | (errors', Some (StopValidation msg)) =>
          ((if Py.nonempty msg then (errors' ++ [msg])%list else errors'), Stopped)
      | (errors', Some e) => (errors', Uncaught e)
      end
  end.

(** The outcome of validating one field: the error list of the field, or the
    exception that escaped. *)
Inductive validated : Set :=
| Done (errors : list string)
| Escaped (e : raised).

(** [Field.validate(form)]: [self.errors = list(self.process_errors)], then
    the chain.  [pre_validate] and [post_validate] do nothing for the field
    classes used here. *)
Definition validate (fm : form) (data : value) (process_errors : list string)
    (validators : list validator) : validated :=
  match _run_validation_chain fm data validators process_errors with
  | (errors, Uncaught e) => Escaped e
  | (errors, _) => Done errors
  end.

(** The field classes of [forms.py] that carry validators or are claimed
    about.  [TextAreaField] and [PasswordField] derive from [StringField]. *)
Inductive field_class : Set :=
| StringField
| PasswordField
| TextAreaField
| FileField.

Record Field : Set := mkField
  { cls : field_class;
    label : string;
    validators : list validator }.

(** [Field.process_formdata(valuelist)] for these classes: the first
    submitted value, and [None] (the default) when nothing was submitted.  It
    raises nothing, so [process_errors] stays empty. *)
Definition process_formdata (valuelist : list value) : value :=
  match valuelist with
  | [] => PyNone
  | v :: _ => v
  end.

Definition process_errors (f : Field) (valuelist : list value) : list string :=
  [].

(** Validation of a declared field on submitted data. *)
Definition validate_field (fm : form) (f : Field) (data : value) : validated :=
  validate fm data [] (validators f).

(** Validation of a declared field on what the request submitted for it:
    [Field.process] followed by [Field.validate]. *)
Definition submit (fm : form) (f : Field) (valuelist : list value) : validated :=
  validate fm (process_formdata valuelist) (process_errors f valuelist)
    (validators f).

(** [BaseForm.validate]: every declared field is validated against the whole
    form, in declaration order. *)
Definition validate_form (decls : list (string * Field)) (fm : form)
    : list (string * validated) :=
  map (fun d =>
         (fst d,
          validate_field fm (snd d)
            (match getitem fm (fst d) with Some v => v | None => PyNone end)))
      decls.

(** The form a submission gives rise to: every declared field processes its
    submitted values. *)
Definition bind (decls : list (string * Field))
    (formdata : string -> list value) : form :=
  map (fun d => (fst d, process_formdata (formdata (fst d)))) decls.

End WTForms.

(** ** The declarations of [forms.py] *)

Module Forms.
Import WTForms.

(** Configuration constants for limits *)
Definition max_post_length : Z := 280.
Definition max_comment_length : Z := 150.

Definition max_username_length : Z := 25.
Definition min_username_length : Z := 8.

Definition max_password_length : Z := 20.
Definition min_password_length : Z := 8.

Definition max_file_size : Z := 5 * 1024 * 1024.

(** [allowed_extensions] is a Python set: its members are these three, and
    the order in which [list(..)] and [', '.join(..)] go through them is not
    fixed by the program.  [iteration order] says that [order] is one of the
    orders the set can be gone through. *)
Definition allowed_extensions : list string := ["png"; "jpg"; "jpeg"].

Definition iteration (order : list string) : Prop :=
  Permutation allowed_extensions order.

(** [r'^[a-zA-Z0-9_]+$'] *)
Definition username_re : regex :=
  AnchoredClassPlus
    [Range "a" "z"; Range "A" "Z"; Range "0" "9"; Single "_"]%char.

(** [r'^[a-zA-Z\-]+$'] *)
Definition name_re : regex :=
  AnchoredClassPlus [Range "a" "z"; Range "A" "Z"; Single "-"]%char.

Module LoginForm.
Definition username : Field :=
  mkField StringField "Username"
    [ DataRequired None;
      Length 3 30 None;
      Regexp username_re
        (Some "Username must contain only letters, numbers, and underscores.") ].
Definition password : Field :=
  mkField PasswordField "Password"
    [ DataRequired None;
      Length 6 128 None ].
Definition fields : list (string * Field) :=
  [ ("username", username); ("password", password) ].
End LoginForm.

Module RegisterForm.
Definition first_name : Field :=
  mkField StringField "First Name"
    [ DataRequired None;
      Length 1 50 None;
      Regexp name_re
        (Some "First name must contain only letters and hyphens.") ].
Definition last_name : Field :=
  mkField StringField "Last Name"
    [ DataRequired None;
      Length 1 50 None;
      Regexp name_re
        (Some "Last name must contain only letters and hyphens.") ].
Definition username : Field :=
  mkField StringField "Username"
    [ DataRequired None;
      Length 3 30 None;
      Regexp username_re
        (Some "Username must contain only letters, numbers, and underscores.") ].
Definition password : Field :=
  mkField PasswordField "Password"
    [ DataRequired None;
      Length 6 128 None ].
Definition confirm_password : Field :=
  mkField PasswordField "Confirm Password"
    [ DataRequired None;
      EqualTo "password" (Some "Passwords must match.") ].
Definition fields : list (string * Field) :=
  [ ("first_name", first_name); ("last_name", last_name);
    ("username", username); ("password", password);
    ("confirm_password", confirm_password) ].
End RegisterForm.

Module PostForm.
Definition content : Field :=
  mkField TextAreaField "New Post"
    [ DataRequired (Some "Post content cannot be empty");
      validate_not_empty;
      Length 1 max_post_length
        (Some ("Post must be between 1 and " ++ Py.str max_post_length
               ++ " characters")) ].
(** [order] is the iteration order of [allowed_extensions]. *)
Definition image_allowed (order : list string) : validator :=
  FileAllowed order
    (Some ("Only " ++ Py.join ", " order ++ " files are allowed")).
Definition image_size : validator :=
  FileSize max_file_size 0
    (Some ("File size must be less than "
           ++ Py.str (max_file_size / (1024 * 1024)) ++ "MB")).
Definition image (order : list string) : Field :=
  mkField FileField "Image" [ image_allowed order; image_size ].
Definition fields (order : list string) : list (string * Field) :=
  [ ("content", content); ("image", image order) ].
End PostForm.

Module CommentsForm.
Definition comment : Field :=
  mkField TextAreaField "New Comment"
    [ DataRequired None;
      validate_not_empty;
      Length 1 max_comment_length None ].
Definition fields : list (string * Field) := [ ("comment", comment) ].
End CommentsForm.

Module FriendsForm.
Definition username : Field := mkField StringField "Friend's username" [].
Definition fields : list (string * Field) := [ ("username", username) ].
End FriendsForm.

Module ProfileForm.
Definition education : Field := mkField StringField "Education" [].
Definition employment : Field := mkField StringField "Employment" [].
Definition music : Field := mkField StringField "Favorite song" [].
Definition movie : Field := mkField StringField "Favorite movie" [].
Definition nationality : Field := mkField StringField "Nationality" [].
(** The text fields of the form; [birthday] is a [DateField]. *)
Definition fields : list (string * Field) :=
  [ ("education", education); ("employment", employment);
    ("music", music); ("movie", movie); ("nationality", nationality) ].
End ProfileForm.

(** The custom messages handed to [Length] and [EqualTo]. *)
Definition percent_messages : list string :=
  [ "Post must be between 1 and " ++ Py.str max_post_length ++ " characters";
    "Passwords must match." ].

Fixpoint has_percent (s : string) : bool :=
  match s with
  | EmptyString => false
  | String c s' => Ascii.eqb c "%"%char || has_percent s'
  end.

End Forms.

(** ** Vocabulary for the claims *)

Module Rules.
Import WTForms.

(** What the validator raises on this data, whatever the error list is. *)
Definition raises (v : validator) (fm : form) (data : value) : option raised :=
  snd (call v fm data []).

(** The rule is violated: called on this data, it raises. *)
Definition violated (v : validator) (fm : form) (data : value) : bool :=
  match raises v fm data with
  | None => false
  | Some _ => true
  end.

Definition is_required (v : validator) : bool :=
  match v with DataRequired _ => true | _ => false end.

(** The validators that raise [StopValidation]. *)
Definition stopping (v : validator) : bool :=
  match v with
  | DataRequired _ | FileAllowed _ _ => true
  | _ => false
  end.

Definition stops (fm : form) (data : value) (v : validator) : bool :=
  stopping v && violated v fm data.

(** The rules that are run: the declared ones, in order, up to and including
    the first violated stopping rule. *)
Fixpoint ran (fm : form) (data : value) (vs : list validator)
    : list validator :=
  match vs with
  | [] => []
  | v :: rest => v :: (if stops fm data v then [] else ran fm data rest)
  end.

(** The messages a rule adds to the error list when it is run. *)
Definition contributed (fm : form) (data : value) (v : validator)
    : list string :=
  match raises v fm data with
  | Some (ValidationError m) => [m]
  | Some (StopValidation m) => if Py.nonempty m then [m] else []
  | _ => []
  end.

(** The messages of all violated rules, each rule taken on its own. *)
Definition all_violations (fm : form) (data : value) (vs : list validator)
    : list string :=
  flat_map (contributed fm data) vs.


(** The name ends in one of the allowed extensions, case ignored. *)
Definition has_allowed_extension (name : string) : bool :=
  existsb (fun x => Py.endswith (Py.lower name) ("." ++ x))
    Forms.allowed_extensions.

(** A value that is absent, empty or made of whitespace only; for an upload,
    one without file name. *)
Definition blank (data : value) : bool :=
  match data with
  | PyNone => true
  | PyStr s => Py.all_space s
  | PyFile f => negb (Py.nonempty (filename f))
  end.

(** [DataRequired] is declared first or not at all. *)
Definition required_first (vs : list validator) : bool :=
  match vs with
  | [] => true
  | _ :: rest => forallb (fun v => negb (is_required v)) rest
  end.

(** The validators that read [field.data] as a string. *)
Definition text_only (v : validator) : bool :=
  match v with
  | Length _ _ _ | Regexp _ _ | validate_not_empty => true
  | _ => false
  end.

(** The data is of a type the validators can read: an uploaded file only
    goes to validators that do not treat it as a string. *)
Definition suits (data : value) (vs : list validator) : bool :=
  match data with
  | PyFile f =>
      negb (Py.nonempty (filename f))
      || forallb (fun v => negb (text_only v)) vs
  | _ => true
  end.

(** A field of a given class receives text, except [FileField]. *)
Definition accepts (c : field_class) (data : value) : bool :=
  match c, data with
  | FileField, _ => true
  | _, PyFile _ => false
  | _, _ => true
  end.

(** The field enforces the length range [lo, hi] on passwords and user
    names: a value that is not blank is valid exactly when its length is in
    the range. *)
Definition enforces (f : Field) (lo hi : Z) : Prop :=
  forall fm s,
    Py.all_space s = false ->
    (validate_field fm f (PyStr s) = Done [] <-> lo <= Py.len s <= hi).

(** Every declared field, for one iteration order of [allowed_extensions]. *)
Definition declared (order : list string) : list (string * Field) :=
  (Forms.LoginForm.fields ++ Forms.RegisterForm.fields
   ++ Forms.PostForm.fields order ++ Forms.CommentsForm.fields
   ++ Forms.FriendsForm.fields ++ Forms.ProfileForm.fields)%list.

(** A registration in which only the confirmation varies. *)
Definition registration (confirm : string) (name : string) : list value :=
  if String.eqb name "first_name" then [PyStr "Ann"]
  else if String.eqb name "last_name" then [PyStr "Lee"]
  else if String.eqb name "username" then [PyStr "ann_lee"]
  else if String.eqb name "password" then [PyStr "abc123"]
  else if String.eqb name "confirm_password" then [PyStr confirm]
  else [].

(** [n] copies of the character [c]. *)
Fixpoint repeat_char (c : ascii) (n : nat) : string :=
  match n with
  | O => EmptyString
  | S n' => String c (repeat_char c n')
  end.

(** Every character of [s] is in the class. *)
Fixpoint all_in_class (cls : list class_item) (s : string) : bool :=
  match s with
  | EmptyString => true
  | String c s' => in_class cls c && all_in_class cls s'
  end.

(** One or more characters, all of the class: what [[...]+] matches whole. *)
Definition word (cls : list class_item) (s : string) : bool :=
  Py.nonempty s && all_in_class cls s.

Definition class_of (r : regex) : list class_item :=
  match r with AnchoredClassPlus cls => cls end.

(** The string has a full stop somewhere. *)
Fixpoint has_dot (s : string) : bool :=
  match s with
  | EmptyString => false
  | String c s' => Ascii.eqb c "."%char || has_dot s'
  end.

(** The message of [validate_not_empty]. *)
Definition not_empty_message : string :=
  "This field cannot be empty or contain only whitespace".

(** The data is text: a string, or [None] for a field that was not
    submitted. *)
Definition is_text (data : value) : bool :=
  match data with
  | PyFile _ => false
  | _ => true
  end.

End Rules.

(** ** Python strings: stripping *)

Section Strings.
Import Py.

Lemma nonempty_false (s : string) : nonempty s = false <-> s = EmptyString.
Proof. destruct s; simpl; split; intros H; congruence. Qed.

Lemma all_space_app (s t : string) :
  all_space (s ++ t) = all_space s && all_space t.
Proof.
  induction s as [|c s IH]; simpl; [reflexivity|].
  rewrite IH. apply andb_assoc.
Qed.

Lemma all_space_rev (s : string) : all_space (rev s) = all_space s.
Proof.
  induction s as [|c s IH]; simpl; [reflexivity|].
  rewrite all_space_app, IH. simpl.
  rewrite andb_true_r. apply andb_comm.
Qed.

Lemma all_space_lstrip (s : string) : all_space (lstrip s) = all_space s.
Proof.
  induction s as [|c s IH]; simpl; [reflexivity|].
  destruct (isspace c) eqn:E; simpl; [exact IH | now rewrite E].
Qed.

Lemma lstrip_empty (s : string) :
  lstrip s = EmptyString <-> all_space s = true.
Proof.
  induction s as [|c s IH]; simpl; [tauto|].
  destruct (isspace c); simpl; [exact IH | split; discriminate].
Qed.

Lemma rev_empty (s : string) : rev s = EmptyString <-> s = EmptyString.
Proof.
  split; intros H; [|now subst].
  destruct s as [|c s]; [reflexivity|].
  simpl in H. destruct (rev s); discriminate.
Qed.

Lemma strip_empty (s : string) :
  strip s = EmptyString <-> all_space s = true.
Proof.
  unfold strip, rstrip.
  rewrite rev_empty, lstrip_empty, all_space_rev, all_space_lstrip.
  tauto.
Qed.

Lemma strip_blank (s : string) :
  nonempty (strip s) = negb (all_space s).
Proof.
  destruct (all_space s) eqn:E; simpl.
  - apply nonempty_false, strip_empty, E.
  - destruct (nonempty (strip s)) eqn:N; [reflexivity|].
    apply nonempty_false, strip_empty in N. congruence.
Qed.

Lemma all_space_nonempty (s : string) :
  all_space s = false -> nonempty s = true.
Proof. destruct s; simpl; [discriminate | reflexivity]. Qed.


End Strings.

(** ** The validation chain *)

Section Chain.
Import WTForms Rules.

Ltac break_call :=
  repeat match goal with
         | |- context [if ?b then _ else _] => destruct b eqn:?
         | |- context [match ?x with _ => _ end] => destruct x eqn:?
         | H : context [if ?b then _ else _] |- _ => destruct b eqn:?
         | H : context [match ?x with _ => _ end] |- _ => destruct x eqn:?
         end; simpl in *; try congruence.

(** A call leaves the error list alone, except that a violated
    [DataRequired] empties it; what is raised does not depend on the list. *)
Lemma call_eq (v : validator) (fm : form) (data : value) (e : list string) :
  call v fm data e
  = ((if is_required v && violated v fm data then [] else e),
     raises v fm data).
Proof.
  destruct v; unfold violated, raises, call; simpl; break_call.
Qed.

(** Only the stopping validators raise [StopValidation], and they raise
    nothing else. *)
Lemma raises_stop (v : validator) fm data m :
  raises v fm data = Some (StopValidation m) -> stopping v = true.
Proof.
  destruct v; unfold raises, call; simpl; intros H; break_call.
Qed.

Lemma raises_invalid (v : validator) fm data m :
  raises v fm data = Some (ValidationError m) -> stopping v = false.
Proof.
  destruct v; unfold raises, call; simpl; intros H; break_call.
Qed.

Lemma raises_caught (v : validator) fm data :
  suits data [v] = true ->
  raises v fm data <> Some TypeError /\ raises v fm data <> Some AttributeError.
Proof.
  destruct v; unfold raises, call, suits, truthy; destruct data as [| s | f];
    simpl; try destruct (Py.nonempty (filename f)); simpl;
    intros H; split; break_call.
Qed.

Lemma suits_cons (data : value) (v : validator) (vs : list validator) :
  suits data (v :: vs) = true -> suits data [v] = true /\ suits data vs = true.
Proof.
  unfold suits. destruct data as [| s | f]; simpl; try tauto.
  destruct (Py.nonempty (filename f)); simpl; [|tauto].
  rewrite andb_true_r. apply andb_prop.
Qed.

(** Behind the first position: without [DataRequired], the chain appends
    to the list it starts from the messages of the rules that are run. *)
Lemma chain_tail (fm : form) (data : value) (vs : list validator) :
  forallb (fun v => negb (is_required v)) vs = true ->
  suits data vs = true ->
  forall e0, exists en,
    _run_validation_chain fm data vs e0
    = ((e0 ++ all_violations fm data (ran fm data vs))%list, en)
    /\ forall e, en <> Uncaught e.
Proof.
  induction vs as [|v vs IH]; intros Hreq Hsuit e0.
  - exists Completed. simpl. rewrite app_nil_r. split; congruence.
  - simpl in Hreq. apply andb_prop in Hreq as [Hv Hreq].
    apply suits_cons in Hsuit as [Hsv Hsuit].
    apply negb_true_iff in Hv.
    destruct (raises_caught v fm data Hsv) as [HT HA].
    specialize (IH Hreq Hsuit).
    simpl. rewrite call_eq, Hv. simpl.
    unfold all_violations, stops, violated, contributed in *. simpl.
    destruct (raises v fm data) as [[m | m | |]|] eqn:R; try congruence.
    + rewrite (raises_invalid _ _ _ _ R). simpl.
      destruct (IH (e0 ++ [m])%list) as [en [-> Hen]].
      exists en. split; [|exact Hen]. now rewrite <- app_assoc.
    + rewrite (raises_stop _ _ _ _ R). simpl.
      exists Stopped. split; [|congruence].
      destruct (Py.nonempty m); simpl; now rewrite ?app_nil_r.
    + rewrite andb_false_r. simpl. apply IH.
Qed.

(** The engine on a field whose [DataRequired], if any, comes first: the
    error list holds the messages of the rules that are run, in order. *)
Lemma validate_ran (fm : form) (data : value) (vs : list validator) :
  required_first vs = true ->
  suits data vs = true ->
  validate fm data [] vs = Done (all_violations fm data (ran fm data vs)).
Proof.
  intros Hreq Hsuit. destruct vs as [|v vs].
  - reflexivity.
  - simpl in Hreq. apply suits_cons in Hsuit as [Hsv Hsuit].
    destruct (raises_caught v fm data Hsv) as [HT HA].
    unfold validate. simpl. rewrite call_eq.
    replace (if is_required v && violated v fm data then [] else [])
      with (@nil string)
      by (destruct (is_required v && violated v fm data); reflexivity).
    unfold all_violations, stops, violated, contributed in *. simpl.
    destruct (raises v fm data) as [[m | m | |]|] eqn:R; try congruence.
    + rewrite (raises_invalid _ _ _ _ R). simpl.
      destruct (chain_tail fm data vs Hreq Hsuit [m]) as [en [-> Hen]].
      destruct en; try reflexivity. now elim (Hen e).
    + rewrite (raises_stop _ _ _ _ R). simpl.
      destruct (Py.nonempty m); reflexivity.
    + rewrite andb_false_r. simpl.
      destruct (chain_tail fm data vs Hreq Hsuit []) as [en [-> Hen]].
      destruct en; try reflexivity. now elim (Hen e).
Qed.

End Chain.

(** ** The fields of [forms.py] *)

Section Fields.
Import WTForms Rules Forms.

Lemma messages_have_no_percent :
  forallb (fun m => negb (has_percent m)) percent_messages = true.
Proof. vm_compute. reflexivity. Qed.

Lemma existsb_perm {A : Type} (p : A -> bool) (l l' : list A) :
  Permutation l l' -> existsb p l = existsb p l'.
Proof.
  induction 1 as [| x l l' _ IH | x y l | l l' l'' _ IH1 _ IH2]; simpl.
  - reflexivity.
  - now rewrite IH.
  - destruct (p x), (p y); reflexivity.
  - now rewrite IH1.
Qed.

(** [DataRequired] is violated exactly by blank data. *)
Lemma required_blank (m : option string) (fm : form) (data : value) :
  violated (DataRequired m) fm data = blank data.
Proof.
  unfold violated, raises, call, blank, truthy.
  destruct data as [| s | f]; simpl.
  - reflexivity.
  - rewrite strip_blank.
    destruct (Py.all_space s) eqn:E; simpl.
    + now rewrite andb_false_r.
    + now rewrite (all_space_nonempty s E).
  - rewrite andb_true_r. now destruct (Py.nonempty (filename f)).
Qed.

Lemma required_raises (m : option string) (fm : form) (data : value) :
  raises (DataRequired m) fm data
  = if blank data
    then Some (StopValidation (or_default m "This field is required."))
    else None.
Proof.
  pose proof (required_blank m fm data) as H.
  unfold violated, raises, call in *. simpl in *.
  destruct (blank data);
    match goal with
    | |- context [if ?b then _ else _] => destruct b
    end; simpl in *; congruence.
Qed.

(** A field that starts with [DataRequired] reports only its message on
    blank data. *)
Lemma required_stops (m : option string) (rest : list validator)
    (fm : form) (data : value) :
  blank data = true ->
  validate fm data [] (DataRequired m :: rest)
  = Done (if Py.nonempty (or_default m "This field is required.")
          then [or_default m "This field is required."] else []).
Proof.
  intros B. unfold validate. cbn [_run_validation_chain].
  rewrite call_eq, required_raises, required_blank, B.
  cbn [is_required andb].
  now destruct (Py.nonempty _).
Qed.

(** A field that starts with [DataRequired] goes on to its other rules on
    data that is not blank. *)
Lemma required_passes (m : option string) (rest : list validator)
    (fm : form) (data : value) :
  blank data = false ->
  validate fm data [] (DataRequired m :: rest) = validate fm data [] rest.
Proof.
  intros B. unfold validate. cbn [_run_validation_chain].
  now rewrite call_eq, required_raises, required_blank, B.
Qed.

(** The fields [DataRequired; Length lo hi] (the two password fields). *)
Lemma required_length (m msg : option string) (lo hi : Z)
    (fm : form) (s : string) :
  Py.all_space s = false ->
  validate fm (PyStr s) [] [DataRequired m; Length lo hi msg]
  = if (lo <=? Py.len s) && ((hi =? -1) || (Py.len s <=? hi))
    then Done []
    else Done [or_default msg (length_message lo hi)].
Proof.
  intros B. rewrite required_passes by exact B.
  unfold validate. simpl. rewrite (all_space_nonempty s B).
  now destruct ((lo <=? Py.len s) && ((hi =? -1) || (Py.len s <=? hi))).
Qed.

Lemma image_size_message :
  ("File size must be less than "
   ++ Py.str (max_file_size / (1024 * 1024)) ++ "MB")
  = "File size must be less than 5MB".
Proof. reflexivity. Qed.

(** The image field, case by case. *)
Lemma image_validate (order : list string) (fm : form) (f : FileStorage) :
  iteration order ->
  validate_field fm (PostForm.image order) (PyFile f)
  = if Py.nonempty (filename f) then
      if has_allowed_extension (filename f) then
        if (size f <? 0) || (max_file_size <? size f)
        then Done ["File size must be less than 5MB"]
        else Done []
      else Done ["Only " ++ Py.join ", " order ++ " files are allowed"]
    else Done [].
Proof.
  intros Hit. unfold has_allowed_extension.
  rewrite (existsb_perm _ _ _ Hit).
  unfold validate_field, validate, PostForm.image, PostForm.image_allowed,
    PostForm.image_size.
  rewrite image_size_message.
  cbn [validators _run_validation_chain call].
  destruct (Py.nonempty (filename f)); [|reflexivity].
  destruct (existsb _ order); [|reflexivity].
  destruct ((size f <? 0) || (max_file_size <? size f)); reflexivity.
Qed.

Lemma declared_required_first (order : list string) (name : string) (f : Field) :
  In (name, f) (declared order) -> required_first (validators f) = true.
Proof.
  unfold declared. simpl.
  intros H.
  repeat (destruct H as [H | H]; [inversion H; reflexivity|]).
  destruct H.
Qed.

Lemma declared_suits (order : list string) (name : string) (f : Field)
    (data : value) :
  In (name, f) (declared order) ->
  accepts (cls f) data = true ->
  suits data (validators f) = true.
Proof.
  unfold declared. simpl.
  intros H A.
  repeat (destruct H as [H | H];
          [inversion H; subst; destruct data; simpl in *;
           try reflexivity; try discriminate; apply orb_true_r |]).
  destruct H.
Qed.








(** Every declared field reports the messages of the rules that are run. *)
Lemma declared_ran (order : list string) (name : string) (f : Field)
    (fm : form) (data : value) :
  In (name, f) (declared order) ->
  accepts (cls f) data = true ->
  validate_field fm f data
  = Done (all_violations fm data (ran fm data (validators f))).
Proof.
  intros HIn HA. apply validate_ran.
  - exact (declared_required_first order name f HIn).
  - exact (declared_suits order name f data HIn HA).
Qed.

End Fields.

(** ** The claims of the specification *)

Section Claims.
Import WTForms Rules Forms.

(** C1. The specification gives the user-name length bounds as min = 8 and
    max = 25, the values of [min_username_length] and [max_username_length].
    The [Length] rule of both user-name fields is written with 3 and 30
    instead: a user name of 8 characters satisfies the rule, as claimed, but
    one of 7 characters, below [min_username_length], passes the length rule
    and the whole field too, on the login form and on the registration
    form. *)
Theorem C1_seven_character_username_accepted (fm : form) :
  Py.len "abcdefg" = 7
  /\ 7 < min_username_length
  /\ violated (Length 3 30 None) fm (PyStr "abcdefgh") = false
  /\ In (Length 3 30 None) (validators LoginForm.username)
  /\ In (Length 3 30 None) (validators RegisterForm.username)
  /\ violated (Length 3 30 None) fm (PyStr "abcdefg") = false
  /\ validate_field fm LoginForm.username (PyStr "abcdefg") = Done []
  /\ validate_field fm RegisterForm.username (PyStr "abcdefg") = Done [].
Proof.
  repeat split; try reflexivity; simpl; auto.
Qed.

(** C2, as the specification states it, fails: a value that is present but
    made of whitespace only violates [DataRequired]. *)
Lemma C2_required_rejects_present_blank :
  ~ (forall (m : option string) (fm : form) (data : value),
        violated (DataRequired m) fm data = true <-> data = PyNone).
Proof.
  intros H.
  destruct (H None [] (PyStr "   ")) as [H1 _].
  discriminate (H1 eq_refl).
Qed.

(** C2, amended.  [DataRequired] is violated exactly when the value is
    blank: absent, empty or made of whitespace only.  A field that starts
    with [DataRequired] then reports the message of [DataRequired] alone,
    and otherwise goes on with its other rules; in [forms.py] [DataRequired]
    is declared first wherever it is declared. *)
Theorem C2_required_violated_iff_blank
    (order : list string) (m : option string) (rest : list validator)
    (fm : form) (data : value) :
  violated (DataRequired m) fm data = blank data
  /\ validate fm data [] (DataRequired m :: rest)
     = (if blank data
        then Done (if Py.nonempty (or_default m "This field is required.")
                   then [or_default m "This field is required."] else [])
        else validate fm data [] rest)
  /\ forallb (fun d => required_first (validators (snd d))) (declared order)
     = true.
Proof.
  split; [apply required_blank|]. split; [|reflexivity].
  destruct (blank data) eqn:B.
  - now apply required_stops.
  - now apply required_passes.
Qed.

(** C3, as the specification states it, fails: on the image field no
    [DataRequired] fails, yet a file with a refused extension and too many
    bytes gets the extension message only. *)
Lemma C3_extension_failure_skips_size_rule :
  ~ (forall (name : string) (f : Field) (fm : form) (data : value),
        In (name, f) (declared allowed_extensions) ->
        accepts (cls f) data = true ->
        existsb (fun v => is_required v && violated v fm data) (validators f)
        = false ->
        validate_field fm f data
        = Done (all_violations fm data (validators f))).
Proof.
  intros H.
  specialize (H "image" (PostForm.image allowed_extensions) []
                (PyFile (mkFile "photo.gif" (max_file_size + 1)))).
  assert (In ("image", PostForm.image allowed_extensions)
             (declared allowed_extensions)) as HIn
    by (unfold declared; simpl; auto 20).
  specialize (H HIn eq_refl eq_refl).
  vm_compute in H. discriminate H.
Qed.

(** C3, amended.  For every declared field and every value of the type the
    field receives, the rules run in declaration order up to and including
    the first violated stopping rule ([DataRequired] or [FileAllowed]); the
    rules behind it are not run, whether or not they assume a value.  The
    error list of the field holds the messages of the rules that were run,
    in declaration order. *)
Theorem C3_errors_of_the_rules_run
    (order : list string) (name : string) (f : Field)
    (fm : form) (data : value) :
  In (name, f) (declared order) ->
  accepts (cls f) data = true ->
  validate_field fm f data
  = Done (all_violations fm data (ran fm data (validators f))).
Proof.
  intros HIn HA. exact (declared_ran order name f fm data HIn HA).
Qed.

Lemma C3_errors_of_the_rules_run_witness :
  validate_field [] (PostForm.image allowed_extensions)
    (PyFile (mkFile "photo.gif" (max_file_size + 1)))
  = Done (all_violations []
            (PyFile (mkFile "photo.gif" (max_file_size + 1)))
            (ran [] (PyFile (mkFile "photo.gif" (max_file_size + 1)))
               (validators (PostForm.image allowed_extensions)))).
Proof.
  apply (C3_errors_of_the_rules_run allowed_extensions "image").
  - unfold declared; simpl; auto 20.
  - reflexivity.
Defined.

(** C4. The content field of the post form: the empty string gets the
    message of [DataRequired], 281 letters get the length message (the limit
    is 280), and [hello] gets no error. *)
Theorem C4_post_content_examples (fm : form) :
  validate_field fm PostForm.content (PyStr "")
  = Done ["Post content cannot be empty"]
  /\ Py.len (repeat_char "a" 281) = 281
  /\ max_post_length = 280
  /\ validate_field fm PostForm.content (PyStr (repeat_char "a" 281))
     = Done ["Post must be between 1 and 280 characters"]
  /\ validate_field fm PostForm.content (PyStr "hello") = Done [].
Proof.
  repeat split; vm_compute; reflexivity.
Qed.

(** The registration form as a whole on the two confirmations of C5. *)
Example registration_matching :
  validate_form RegisterForm.fields
    (bind RegisterForm.fields (registration "abc123"))
  = [ ("first_name", Done []); ("last_name", Done []);
      ("username", Done []); ("password", Done []);
      ("confirm_password", Done []) ].
Proof. vm_compute. reflexivity. Qed.

Example registration_mismatch :
  validate_form RegisterForm.fields
    (bind RegisterForm.fields (registration "abc124"))
  = [ ("first_name", Done []); ("last_name", Done []);
      ("username", Done []); ("password", Done []);
      ("confirm_password", Done ["Passwords must match."]) ].
Proof. vm_compute. reflexivity. Qed.




(** C6. The size rule of the image field accepts a file of exactly
    5 * 1024 * 1024 bytes and refuses one of 5 * 1024 * 1024 + 1 bytes: as a
    rule on its own for every file that was supplied, and in the validation
    of the field for every file name with an allowed extension. *)
Theorem C6_file_size_bound_inclusive
    (order : list string) (fm : form) (name : string) :
  iteration order ->
  has_allowed_extension name = true ->
  max_file_size = 5 * 1024 * 1024
  /\ raises PostForm.image_size fm (PyFile (mkFile name (5 * 1024 * 1024)))
     = None
  /\ raises PostForm.image_size fm (PyFile (mkFile name (5 * 1024 * 1024 + 1)))
     = Some (ValidationError "File size must be less than 5MB")
  /\ validate_field fm (PostForm.image order)
       (PyFile (mkFile name (5 * 1024 * 1024))) = Done []
  /\ validate_field fm (PostForm.image order)
       (PyFile (mkFile name (5 * 1024 * 1024 + 1)))
     = Done ["File size must be less than 5MB"].
Proof.
  intros Hit Hext.
  assert (Py.nonempty name = true) as Hname.
  { destruct name; [vm_compute in Hext; discriminate | reflexivity]. }
  split; [reflexivity|].
  split; [|split; [|split]].
  - unfold raises, PostForm.image_size, call. simpl filename.
    rewrite Hname. reflexivity.
  - unfold raises, PostForm.image_size, call. simpl filename.
    rewrite Hname. reflexivity.
  - rewrite (image_validate order fm _ Hit). simpl filename.
    rewrite Hname, Hext. reflexivity.
  - rewrite (image_validate order fm _ Hit). simpl filename.
    rewrite Hname, Hext. reflexivity.
Qed.

Lemma C6_file_size_bound_inclusive_witness :
  max_file_size = 5 * 1024 * 1024
  /\ raises PostForm.image_size []
       (PyFile (mkFile "photo.png" (5 * 1024 * 1024))) = None
  /\ raises PostForm.image_size []
       (PyFile (mkFile "photo.png" (5 * 1024 * 1024 + 1)))
     = Some (ValidationError "File size must be less than 5MB")
  /\ validate_field [] (PostForm.image allowed_extensions)
       (PyFile (mkFile "photo.png" (5 * 1024 * 1024))) = Done []
  /\ validate_field [] (PostForm.image allowed_extensions)
       (PyFile (mkFile "photo.png" (5 * 1024 * 1024 + 1)))
     = Done ["File size must be less than 5MB"].
Proof.
  apply (C6_file_size_bound_inclusive allowed_extensions [] "photo.png").
  - apply Permutation_refl.
  - reflexivity.
Defined.



(** C8, as the specification states it, fails: validating the post content
    or the comment on a value made of whitespace only never reports the
    message of [validate_not_empty]. *)
Lemma C8_blank_message_not_reported :
  ~ (forall (f : Field) (s : string),
        f = PostForm.content \/ f = CommentsForm.comment ->
        Py.all_space s = true ->
        exists errors,
          validate_field [] f (PyStr s) = Done errors
          /\ In not_empty_message errors).
Proof.
  intros H.
  destruct (H PostForm.content "   " (or_introl eq_refl) eq_refl)
    as [errors [Hv Hin]].
  vm_compute in Hv. inversion Hv; subst.
  destruct Hin as [Hin | []]. discriminate Hin.
Qed.

(** C8, amended.  A value that is present and made of whitespace only has
    length zero once stripped, and the post content and the comment refuse
    it; but it is [DataRequired], declared before [validate_not_empty], that
    refuses it and stops the chain.  The field reports the message of
    [DataRequired] alone, [validate_not_empty] is not among the rules that
    are run, and its message is not reported.  Called on its own,
    [validate_not_empty] raises its message on such a value. *)
Theorem C8_blank_refused_by_required
    (fm : form) (s : string) (errors : list string) :
  Py.all_space s = true ->
  Py.strip s = ""
  /\ Py.len (Py.strip s) = 0
  /\ validate_field fm PostForm.content (PyStr s)
     = Done ["Post content cannot be empty"]
  /\ validate_field fm CommentsForm.comment (PyStr s)
     = Done ["This field is required."]
  /\ ran fm (PyStr s) (validators PostForm.content)
     = [DataRequired (Some "Post content cannot be empty")]
  /\ ran fm (PyStr s) (validators CommentsForm.comment)
     = [DataRequired None]
  /\ call validate_not_empty fm (PyStr s) errors
     = (errors, Some (ValidationError not_empty_message)).
Proof.
  intros Hs.
  assert (Py.strip s = "") as Hstrip by now apply strip_empty.
  assert (blank (PyStr s) = true) as Hb by exact Hs.
  split; [exact Hstrip|]. split; [now rewrite Hstrip|].
  split; [|split; [|split; [|split]]].
  - unfold validate_field, PostForm.content. cbn [validators].
    now rewrite required_stops.
  - unfold validate_field, CommentsForm.comment. cbn [validators].
    now rewrite required_stops.
  - unfold PostForm.content. cbn [validators ran stops stopping andb].
    now rewrite required_blank, Hb.
  - unfold CommentsForm.comment. cbn [validators ran stops stopping andb].
    now rewrite required_blank, Hb.
  - unfold call, truthy. rewrite Hstrip. simpl.
    now destruct (Py.nonempty s).
Qed.

Lemma C8_blank_refused_by_required_witness :
  Py.strip "   " = ""
  /\ Py.len (Py.strip "   ") = 0
  /\ validate_field [] PostForm.content (PyStr "   ")
     = Done ["Post content cannot be empty"]
  /\ validate_field [] CommentsForm.comment (PyStr "   ")
     = Done ["This field is required."]
  /\ ran [] (PyStr "   ") (validators PostForm.content)
     = [DataRequired (Some "Post content cannot be empty")]
  /\ ran [] (PyStr "   ") (validators CommentsForm.comment)
     = [DataRequired None]
  /\ call validate_not_empty [] (PyStr "   ") []
     = ([], Some (ValidationError not_empty_message)).
Proof.
  apply (C8_blank_refused_by_required [] "   " []). reflexivity.
Defined.

(** C9. The user-name field of the friends form and the text fields of the
    profile form declare no validator, and their validation reports no
    error, whatever was submitted. *)
Theorem C9_no_rules_no_errors
    (name : string) (f : Field) (fm : form) (valuelist : list value)
    (data : value) :
  In (name, f) (FriendsForm.fields ++ ProfileForm.fields)%list ->
  validators f = []
  /\ submit fm f valuelist = Done []
  /\ validate_field fm f data = Done [].
Proof.
  simpl. intros H.
  repeat (destruct H as [H | H];
          [inversion H; subst; repeat split; reflexivity|]).
  destruct H.
Qed.

Lemma C9_no_rules_no_errors_witness :
  validators FriendsForm.username = []
  /\ submit [("username", PyStr "")] FriendsForm.username [PyStr ""] = Done []
  /\ validate_field [("username", PyStr "")] FriendsForm.username (PyStr "")
     = Done [].
Proof.
  apply (C9_no_rules_no_errors "username" FriendsForm.username
           [("username", PyStr "")] [PyStr ""] (PyStr "")).
  simpl; auto.
Defined.

(** Neither password field enforces the range [8, 20]: a password of 7
    characters is valid on both forms. *)
Lemma no_form_enforces_8_to_20 :
  ~ ((enforces LoginForm.password 6 128 /\ enforces RegisterForm.password 8 20)
     \/ (enforces LoginForm.password 8 20
         /\ enforces RegisterForm.password 6 128)).
Proof.
  intros [[_ H] | [H _]];
    destruct (H [] "abcdefg" eq_refl) as [H1 _];
    specialize (H1 eq_refl); vm_compute in H1;
    destruct H1 as [H1 _]; now apply H1.
Qed.

(** The password fields as they are declared: the login form and the
    registration form carry the same validators, and on both a password
    that is not blank is valid when its length is in [6, 128] and gets the
    length message otherwise. *)
Theorem password_length_same_on_both_forms (fm : form) (s : string) :
  Py.all_space s = false ->
  validators LoginForm.password = validators RegisterForm.password
  /\ validate_field fm LoginForm.password (PyStr s)
     = (if (6 <=? Py.len s) && (Py.len s <=? 128)
        then Done []
        else Done ["Field must be between 6 and 128 characters long."])
  /\ validate_field fm RegisterForm.password (PyStr s)
     = (if (6 <=? Py.len s) && (Py.len s <=? 128)
        then Done []
        else Done ["Field must be between 6 and 128 characters long."])
  /\ enforces LoginForm.password 6 128
  /\ enforces RegisterForm.password 6 128.
Proof.
  intros Hs.
  assert (forall fm' s', Py.all_space s' = false ->
            validate fm' (PyStr s') [] [DataRequired None; Length 6 128 None]
            = (if (6 <=? Py.len s') && (Py.len s' <=? 128)
               then Done []
               else Done ["Field must be between 6 and 128 characters long."]))
    as Hv.
  { intros fm' s' Hs'. now rewrite (required_length _ _ _ _ _ _ Hs'). }
  assert (forall f, validators f = [DataRequired None; Length 6 128 None] ->
            enforces f 6 128) as He.
  { intros f Hf fm' s' Hs'. unfold validate_field. rewrite Hf, (Hv _ _ Hs').
    destruct (Z.leb_spec 6 (Py.len s')); destruct (Z.leb_spec (Py.len s') 128);
      simpl; split; intros Hd; try reflexivity; try discriminate; lia. }
  split; [reflexivity|].
  split; [exact (Hv fm s Hs)|]. split; [exact (Hv fm s Hs)|].
  split; apply He; reflexivity.
Qed.

Lemma password_length_same_on_both_forms_witness :
  validators LoginForm.password = validators RegisterForm.password
  /\ validate_field [] LoginForm.password (PyStr "abcdefg")
     = (if (6 <=? Py.len "abcdefg") && (Py.len "abcdefg" <=? 128)
        then Done []
        else Done ["Field must be between 6 and 128 characters long."])
  /\ validate_field [] RegisterForm.password (PyStr "abcdefg")
     = (if (6 <=? Py.len "abcdefg") && (Py.len "abcdefg" <=? 128)
        then Done []
        else Done ["Field must be between 6 and 128 characters long."])
  /\ enforces LoginForm.password 6 128
  /\ enforces RegisterForm.password 6 128.
Proof.
  apply (password_length_same_on_both_forms [] "abcdefg"). reflexivity.
Defined.

(** C10. The specification has one form enforce the password length range
    [8, 20], the values of [min_password_length] and [max_password_length].
    No rule uses these constants: the [Length] rule of both password fields
    is written with 6 and 128.  A password of 7 characters, below
    [min_password_length], and one of 21 characters, above
    [max_password_length], pass the length rule and the whole field on the
    login form and on the registration form. *)
Theorem C10_password_outside_8_to_20_accepted (fm : form) :
  min_password_length = 8
  /\ max_password_length = 20
  /\ Py.len "abcdefg" = 7
  /\ Py.len (repeat_char "a" 21) = 21
  /\ In (Length 6 128 None) (validators LoginForm.password)
  /\ In (Length 6 128 None) (validators RegisterForm.password)
  /\ validate_field fm LoginForm.password (PyStr "abcdefg") = Done []
  /\ validate_field fm RegisterForm.password (PyStr "abcdefg") = Done []
  /\ validate_field fm LoginForm.password (PyStr (repeat_char "a" 21))
     = Done []
  /\ validate_field fm RegisterForm.password (PyStr (repeat_char "a" 21))
     = Done [].
Proof.
  repeat split; try reflexivity; simpl; auto.
Qed.

End Claims.

(** ** Python strings: concatenation, suffixes, case *)

Section MoreStrings.
Import Py.

Lemma append_nil_r (s : string) : s ++ "" = s.
Proof. induction s as [|c s IH]; simpl; [reflexivity | now rewrite IH]. Qed.

Lemma append_assoc (a b c : string) : (a ++ b) ++ c = a ++ (b ++ c).
Proof. induction a as [|x a IH]; simpl; [reflexivity | now rewrite IH]. Qed.

Lemma len_append (a b : string) : len (a ++ b) = len a + len b.
Proof.
  unfold len. induction a as [|x a IH]; simpl String.length; [reflexivity|].
  rewrite !Nat2Z.inj_succ, IH. lia.
Qed.

Lemma len_nonneg (s : string) : 0 <= len s.
Proof. unfold len. lia. Qed.

Lemma len_nonempty (s : string) : nonempty s = true -> 1 <= len s.
Proof. destruct s; [discriminate|]. unfold len. simpl String.length. lia. Qed.

Lemma rev_append (a b : string) : rev (a ++ b) = rev b ++ rev a.
Proof.
  induction a as [|x a IH]; simpl.
  - now rewrite append_nil_r.
  - now rewrite IH, append_assoc.
Qed.

Lemma prefix_append (p r : string) : String.prefix p (p ++ r) = true.
Proof.
  induction p as [|x p IH]; simpl; [now destruct r|].
  destruct (ascii_dec x x); [exact IH | congruence].
Qed.

Lemma prefix_split (p s : string) :
  String.prefix p s = true -> exists r, s = p ++ r.
Proof.
  revert s. induction p as [|x p IH]; intros s H.
  - now exists s.
  - destruct s as [|y s]; simpl in H; [discriminate|].
    destruct (ascii_dec x y) as [->|]; [|discriminate].
    destruct (IH s H) as [r ->]. now exists r.
Qed.

(** [(a + b).endswith(b)] *)
Lemma endswith_append (a b : string) : endswith (a ++ b) b = true.
Proof. unfold endswith. rewrite rev_append. apply prefix_append. Qed.

Lemma lower_append (a b : string) : lower (a ++ b) = lower a ++ lower b.
Proof. induction a as [|x a IH]; simpl; [reflexivity | now rewrite IH]. Qed.

Lemma lower_char_dot (c : ascii) :
  Ascii.eqb (lower_char c) "."%char = Ascii.eqb c "."%char.
Proof.
  destruct c as [[] [] [] [] [] [] [] []]; vm_compute; reflexivity.
Qed.

End MoreStrings.

(** ** The patterns *)

Section Patterns.
Import WTForms Rules Forms.

Lemma drop_class_all (cls : list class_item) (p q : string) :
  all_in_class cls p = true -> drop_class cls (p ++ q) = drop_class cls q.
Proof.
  induction p as [|c p IH]; simpl; [reflexivity|].
  intros H. apply andb_prop in H as [Hc Hp]. now rewrite Hc, IH.
Qed.

Lemma drop_class_split (cls : list class_item) (s : string) :
  exists p, s = p ++ drop_class cls s /\ all_in_class cls p = true.
Proof.
  induction s as [|c s [p [Hs Hp]]]; simpl.
  - now exists "".
  - destruct (in_class cls c) eqn:E.
    + exists (String c p). simpl. now rewrite <- Hs, E, Hp.
    + now exists "".
Qed.

(** What [^[cls]+$] accepts with [match]: a word of the class, or such a
    word followed by one line feed. *)
Lemma re_match_spec (cls : list class_item) (s : string) :
  re_match (AnchoredClassPlus cls) s = true
  <-> word cls s = true
      \/ exists t, s = t ++ newline /\ word cls t = true.
Proof.
  unfold word. split.
  - destruct s as [|c s]; simpl; [discriminate|].
    intros H. apply andb_prop in H as [Hc H].
    destruct (drop_class_split cls s) as [p [Hs Hp]].
    apply orb_prop in H as [H | H]; apply String.eqb_eq in H;
      rewrite H in Hs.
    + left. rewrite append_nil_r in Hs. subst p. now rewrite Hc, Hp.
    + right. exists (String c p). simpl. now rewrite <- Hs, Hc, Hp.
  - intros [H | [t [-> H]]].
    + destruct s as [|c s]; simpl in *; [discriminate|].
      apply andb_prop in H as [Hc Hs]. rewrite Hc. simpl.
      rewrite <- (append_nil_r s), (drop_class_all cls s "" Hs). reflexivity.
    + destruct t as [|c t]; simpl in *; [discriminate|].
      apply andb_prop in H as [Hc Ht]. rewrite Hc. simpl.
      rewrite (drop_class_all cls t newline Ht). simpl.
      now destruct (in_class cls (ascii_of_nat 10)).
Qed.

Lemma username_class_not_space (c : ascii) :
  in_class (class_of username_re) c = true -> Py.isspace c = false.
Proof.
  destruct c as [[] [] [] [] [] [] [] []]; vm_compute; congruence.
Qed.

Lemma name_class_not_space (c : ascii) :
  in_class (class_of name_re) c = true -> Py.isspace c = false.
Proof.
  destruct c as [[] [] [] [] [] [] [] []]; vm_compute; congruence.
Qed.

(** A string that starts with a character that is no whitespace is not
    blank, whatever follows. *)
Lemma word_not_blank (cls : list class_item) (t r : string) :
  (forall c, in_class cls c = true -> Py.isspace c = false) ->
  word cls t = true -> Py.all_space (t ++ r) = false.
Proof.
  intros Hcls H. unfold word in H.
  destruct t as [|c t]; simpl in *; [discriminate|].
  apply andb_prop in H as [Hc _]. now rewrite (Hcls c Hc).
Qed.

End Patterns.

(** ** The fields, rule by rule *)

Section FieldShapes.
Import WTForms Rules Forms.

(** The shape of the user-name and name fields:
    [DataRequired(), Length(min, max), Regexp(re, message)]. *)
Lemma required_length_regexp (fm : form) (s : string) (lo hi : Z)
    (re : regex) (msg : string) :
  validate fm (PyStr s) []
    [DataRequired None; Length lo hi None; Regexp re (Some msg)]
  = if Py.all_space s then Done ["This field is required."]
    else Done ((if (lo <=? Py.len s) && ((hi =? -1) || (Py.len s <=? hi))
                then [] else [length_message lo hi])
               ++ (if re_match re s then [] else [msg]))%list.
Proof.
  destruct (Py.all_space s) eqn:B.
  - now rewrite required_stops.
  - rewrite required_passes by exact B.
    destruct s as [|c s']; [discriminate B|].
    unfold validate.
    cbn -[Py.len Z.leb Z.eqb re_match length_message].
    destruct ((lo <=? Py.len (String c s'))
              && ((hi =? -1) || (Py.len (String c s') <=? hi)));
      cbn -[Py.len Z.leb Z.eqb re_match length_message];
      destruct (re_match re (String c s')); reflexivity.
Qed.

(** The shape of the two text areas:
    [DataRequired(message), validate_not_empty, Length(1, max, message)]. *)
Lemma required_not_empty_length (fm : form) (s : string)
    (m msg : option string) (hi : Z) :
  0 <= hi ->
  validate fm (PyStr s) []
    [DataRequired m; validate_not_empty; Length 1 hi msg]
  = if Py.all_space s
    then Done (if Py.nonempty (or_default m "This field is required.")
               then [or_default m "This field is required."] else [])
    else if Py.len s <=? hi then Done []
    else Done [or_default msg (length_message 1 hi)].
Proof.
  intros Hhi. destruct (Py.all_space s) eqn:B.
  - now rewrite required_stops.
  - rewrite required_passes by exact B.
    pose proof (len_nonempty s (all_space_nonempty s B)) as Hlen.
    pose proof (strip_blank s) as Hstrip. rewrite B in Hstrip.
    destruct s as [|c s']; [discriminate B|].
    unfold validate.
    cbn -[Py.len Py.strip Z.leb Z.eqb length_message].
    rewrite Hstrip.
    cbn -[Py.len Py.strip Z.leb Z.eqb length_message].
    replace (1 <=? Py.len (String c s')) with true
      by (symmetry; apply Z.leb_le; lia).
    replace (hi =? -1) with false by (symmetry; apply Z.eqb_neq; lia).
    cbn -[Py.len Py.strip Z.leb Z.eqb length_message].
    now destruct (Py.len (String c s') <=? hi).
Qed.

(** A user name is valid exactly when it has 3 to 30 characters and is a
    word of letters, digits and underscores, possibly followed by one line
    feed. *)
Lemma username_valid_iff (fm : form) (s : string) :
  validate fm (PyStr s) [] (validators LoginForm.username) = Done []
  <-> 3 <= Py.len s <= 30
      /\ (word (class_of username_re) s = true
          \/ exists t, s = t ++ newline
                       /\ word (class_of username_re) t = true).
Proof.
  unfold LoginForm.username. cbn [validators].
  rewrite required_length_regexp.
  rewrite <- (re_match_spec (class_of username_re) s).
  change (AnchoredClassPlus (class_of username_re)) with username_re.
  split.
  - destruct (Py.all_space s); [discriminate|].
    destruct (Z.leb_spec 3 (Py.len s)); destruct (Z.leb_spec (Py.len s) 30);
      destruct (re_match username_re s); simpl; intros Hd;
      try discriminate Hd; split; [lia | reflexivity].
  - intros [Hlen Hre].
    assert (Py.all_space s = false) as B.
    { apply (re_match_spec (class_of username_re)) in Hre.
      destruct Hre as [Hw | [t [-> Hw]]].
      - rewrite <- (append_nil_r s).
        exact (word_not_blank _ s "" username_class_not_space Hw).
      - exact (word_not_blank _ t newline username_class_not_space Hw). }
    rewrite B, Hre.
    replace (3 <=? Py.len s) with true by (symmetry; apply Z.leb_le; lia).
    replace (Py.len s <=? 30) with true by (symmetry; apply Z.leb_le; lia).
    reflexivity.
Qed.

Lemma has_dot_append (a b : string) :
  has_dot (a ++ b) = has_dot a || has_dot b.
Proof.
  induction a as [|c a IH]; simpl; [reflexivity|].
  rewrite IH. apply orb_assoc.
Qed.

Lemma has_dot_rev (s : string) : has_dot (Py.rev s) = has_dot s.
Proof.
  induction s as [|c s IH]; simpl; [reflexivity|].
  rewrite has_dot_append, IH. simpl. rewrite orb_false_r. apply orb_comm.
Qed.

Lemma has_dot_lower (s : string) : has_dot (Py.lower s) = has_dot s.
Proof.
  induction s as [|c s IH]; simpl; [reflexivity|].
  now rewrite lower_char_dot, IH.
Qed.

(** A name the extension rule lets through has a full stop in it. *)
Lemma allowed_extension_has_dot (name : string) :
  has_allowed_extension name = true -> has_dot name = true.
Proof.
  unfold has_allowed_extension. intros H.
  apply existsb_exists in H as [x [_ H]].
  unfold Py.endswith in H. apply prefix_split in H as [r Hr].
  rewrite <- has_dot_lower, <- has_dot_rev, Hr, has_dot_append, has_dot_rev.
  reflexivity.
Qed.

End FieldShapes.

(** ** Further properties of the declared fields *)

Section FieldProperties.
Import WTForms Rules Forms.

(** X1. The user-name field reports the same errors on the login form and
    on the registration form: the required message alone for a blank value,
    and otherwise the length message (length outside 3..30) followed by the
    pattern message (value not matched by the pattern); both can be reported
    together, in that order. *)
Theorem username_errors (fm : form) (s : string) :
  validate_field fm LoginForm.username (PyStr s)
  = validate_field fm RegisterForm.username (PyStr s)
  /\ validate_field fm LoginForm.username (PyStr s)
     = if Py.all_space s then Done ["This field is required."]
       else Done ((if (3 <=? Py.len s) && (Py.len s <=? 30) then []
                   else ["Field must be between 3 and 30 characters long."])
                  ++ (if re_match username_re s then []
                      else ["Username must contain only letters, numbers, and underscores."]))%list.
Proof.
  split; [reflexivity|].
  unfold validate_field, LoginForm.username. cbn [validators].
  now rewrite required_length_regexp.
Qed.

(** X2. A user name is accepted, on either form, exactly when it has 3 to 30
    characters and consists of letters, digits and underscores only, or of
    such characters followed by one final line feed. *)
Theorem username_accepted_iff_word (fm : form) (s : string) :
  (validate_field fm LoginForm.username (PyStr s) = Done []
   <-> 3 <= Py.len s <= 30
       /\ (word (class_of username_re) s = true
           \/ exists t, s = t ++ newline
                        /\ word (class_of username_re) t = true))
  /\ (validate_field fm RegisterForm.username (PyStr s) = Done []
      <-> 3 <= Py.len s <= 30
          /\ (word (class_of username_re) s = true
              \/ exists t, s = t ++ newline
                           /\ word (class_of username_re) t = true)).
Proof.
  split; exact (username_valid_iff fm s).
Qed.

(** X3. The pattern of the user name lets a final line feed through: a word
    of letters, digits and underscores followed by a line feed is accepted
    when the length, line feed included, is between 3 and 30. *)
Theorem username_accepts_trailing_newline (fm : form) (t : string) :
  word (class_of username_re) t = true ->
  3 <= Py.len t + 1 <= 30 ->
  validate_field fm LoginForm.username (PyStr (t ++ newline)) = Done []
  /\ validate_field fm RegisterForm.username (PyStr (t ++ newline)) = Done [].
Proof.
  intros Hw Hlen.
  assert (validate fm (PyStr (t ++ newline)) [] (validators LoginForm.username)
          = Done []) as H.
  { apply username_valid_iff. split.
    - rewrite len_append. exact Hlen.
    - right. now exists t. }
  split; exact H.
Qed.

Lemma username_accepts_trailing_newline_witness :
  validate_field [] LoginForm.username (PyStr ("ab" ++ newline)) = Done []
  /\ validate_field [] RegisterForm.username (PyStr ("ab" ++ newline))
     = Done [].
Proof.
  apply (username_accepts_trailing_newline [] "ab").
  - reflexivity.
  - vm_compute. split; discriminate.
Defined.

(** X4. The first-name and last-name fields: the required message alone for
    a blank value; otherwise the length message when the value has more than
    50 characters, followed by the field's pattern message when the value is
    not matched by the pattern.  The lower bound 1 of the length rule never
    produces an error. *)
Theorem name_errors (fm : form) (s : string) :
  validate_field fm RegisterForm.first_name (PyStr s)
  = (if Py.all_space s then Done ["This field is required."]
     else Done ((if Py.len s <=? 50 then []
                 else ["Field must be between 1 and 50 characters long."])
                ++ (if re_match name_re s then []
                    else ["First name must contain only letters and hyphens."]))%list)
  /\ validate_field fm RegisterForm.last_name (PyStr s)
     = (if Py.all_space s then Done ["This field is required."]
        else Done ((if Py.len s <=? 50 then []
                    else ["Field must be between 1 and 50 characters long."])
                   ++ (if re_match name_re s then []
                       else ["Last name must contain only letters and hyphens."]))%list).
Proof.
  unfold validate_field, RegisterForm.first_name, RegisterForm.last_name.
  cbn [validators]. rewrite !required_length_regexp.
  destruct (Py.all_space s) eqn:B; [split; reflexivity|].
  pose proof (len_nonempty s (all_space_nonempty s B)) as Hlen.
  replace (1 <=? Py.len s) with true by (symmetry; apply Z.leb_le; lia).
  split; reflexivity.
Qed.

(** X5. The content field of the post form: an absent or blank content gets
    [Post content cannot be empty] alone; any other content is valid up to
    280 characters, surrounding whitespace counted, and gets the length
    message beyond. *)
Theorem post_content_errors (fm : form) (s : string) :
  validate_field fm PostForm.content PyNone
  = Done ["Post content cannot be empty"]
  /\ validate_field fm PostForm.content (PyStr s)
     = (if Py.all_space s then Done ["Post content cannot be empty"]
        else if Py.len s <=? max_post_length then Done []
        else Done ["Post must be between 1 and 280 characters"]).
Proof.
  split; [reflexivity|].
  unfold validate_field, PostForm.content. cbn [validators].
  rewrite required_not_empty_length by (unfold max_post_length; lia).
  reflexivity.
Qed.

(** X6. The comment field: an absent or blank comment gets the required
    message alone; any other comment is valid up to 150 characters,
    surrounding whitespace counted, and gets the length message beyond. *)
Theorem comment_errors (fm : form) (s : string) :
  validate_field fm CommentsForm.comment PyNone
  = Done ["This field is required."]
  /\ validate_field fm CommentsForm.comment (PyStr s)
     = (if Py.all_space s then Done ["This field is required."]
        else if Py.len s <=? max_comment_length then Done []
        else Done ["Field must be between 1 and 150 characters long."]).
Proof.
  split; [reflexivity|].
  unfold validate_field, CommentsForm.comment. cbn [validators].
  rewrite required_not_empty_length by (unfold max_comment_length; lia).
  reflexivity.
Qed.

(** X7. On text, [validate_not_empty] is violated by the same values as
    [DataRequired], which runs before it and stops the chain: its message is
    never in the error list of the post content or of the comment. *)
Theorem not_empty_message_never_reported
    (fm : form) (data : value) (errors : list string) :
  is_text data = true ->
  validate_field fm PostForm.content data = Done errors
  \/ validate_field fm CommentsForm.comment data = Done errors ->
  violated validate_not_empty fm data = blank data
  /\ ~ In not_empty_message errors.
Proof.
  intros Ht H. destruct data as [| s | f]; [| |discriminate Ht].
  - split; [reflexivity|].
    destruct H as [H | H]; vm_compute in H; inversion H; subst;
      intros [Hin | []]; discriminate Hin.
  - split.
    + unfold violated, raises, call, truthy, blank.
      rewrite strip_blank.
      destruct (Py.all_space s) eqn:B; simpl.
      * now destruct (Py.nonempty s).
      * now rewrite (all_space_nonempty s B).
    + unfold validate_field, PostForm.content, CommentsForm.comment in H.
      cbn [validators] in H.
      rewrite !required_not_empty_length in H
        by (unfold max_post_length, max_comment_length; lia).
      destruct (Py.all_space s);
        [| destruct (Py.len s <=? max_post_length);
           destruct (Py.len s <=? max_comment_length)];
        destruct H as [H | H]; inversion H; subst;
        simpl; intros Hin;
        repeat (destruct Hin as [Hin | Hin]; [discriminate Hin|]);
        exact Hin.
Qed.

Lemma not_empty_message_never_reported_witness :
  violated validate_not_empty [] (PyStr "   ") = blank (PyStr "   ")
  /\ ~ In not_empty_message ["Post content cannot be empty"].
Proof.
  apply (not_empty_message_never_reported [] (PyStr "   ")
           ["Post content cannot be empty"]).
  - reflexivity.
  - left. reflexivity.
Defined.

(** X8. The image field never reports more than one error, whatever was
    submitted for it: the extension message and the size message are never
    reported together. *)
Theorem image_at_most_one_error
    (order : list string) (fm : form) (data : value) :
  iteration order ->
  exists errors,
    validate_field fm (PostForm.image order) data = Done errors
    /\ (length errors <= 1)%nat.
Proof.
  intros Hit. destruct data as [| s | f].
  - exists []. split; [reflexivity | simpl; lia].
  - exists []. split; [reflexivity | simpl; lia].
  - rewrite (image_validate order fm f Hit).
    destruct (Py.nonempty (filename f));
      [destruct (has_allowed_extension (filename f));
       [destruct ((size f <? 0) || (max_file_size <? size f))|]|];
      eexists; (split; [reflexivity | simpl; lia]).
Qed.

Lemma image_at_most_one_error_witness :
  exists errors,
    validate_field [] (PostForm.image allowed_extensions)
      (PyFile (mkFile "photo.gif" (max_file_size + 1))) = Done errors
    /\ (length errors <= 1)%nat.
Proof.
  apply (image_at_most_one_error allowed_extensions []
           (PyFile (mkFile "photo.gif" (max_file_size + 1)))).
  apply Permutation_refl.
Defined.

(** X9. Only the end of the file name counts for the extension rule: a name
    that ends in a full stop and [png], [jpg] or [jpeg], in any letter case,
    is accepted whatever precedes the full stop (nothing at all, or a name
    with another extension inside), when its size is within the limit. *)
Theorem image_accepts_by_suffix
    (order : list string) (fm : form) (stem ext : string) (sz : Z) :
  iteration order ->
  In (Py.lower ext) allowed_extensions ->
  0 <= sz <= max_file_size ->
  validate_field fm (PostForm.image order)
    (PyFile (mkFile (stem ++ "." ++ ext) sz)) = Done [].
Proof.
  intros Hit Hext Hsz.
  rewrite (image_validate order fm _ Hit). cbn [filename size].
  replace (Py.nonempty (stem ++ "." ++ ext)) with true
    by (now destruct stem).
  replace (has_allowed_extension (stem ++ "." ++ ext)) with true.
  - replace ((sz <? 0) || (max_file_size <? sz)) with false; [reflexivity|].
    symmetry. apply orb_false_iff. split; apply Z.ltb_ge; lia.
  - symmetry. unfold has_allowed_extension.
    apply existsb_exists. exists (Py.lower ext). split; [exact Hext|].
    rewrite !lower_append.
    change (Py.lower ".") with ".".
    apply endswith_append.
Qed.

Lemma image_accepts_by_suffix_witness :
  validate_field [] (PostForm.image allowed_extensions)
    (PyFile (mkFile ("shell.php" ++ "." ++ "JPeG") 2048)) = Done [].
Proof.
  apply (image_accepts_by_suffix allowed_extensions [] "shell.php" "JPeG" 2048).
  - apply Permutation_refl.
  - simpl. auto.
  - unfold max_file_size. lia.
Defined.

(** X10. A supplied file whose name has no full stop is always refused with
    the extension message, whatever its size. *)
Theorem image_refuses_name_without_dot
    (order : list string) (fm : form) (name : string) (sz : Z) :
  iteration order ->
  Py.nonempty name = true ->
  has_dot name = false ->
  validate_field fm (PostForm.image order) (PyFile (mkFile name sz))
  = Done ["Only " ++ Py.join ", " order ++ " files are allowed"].
Proof.
  intros Hit Hname Hdot.
  rewrite (image_validate order fm _ Hit). cbn [filename size].
  rewrite Hname.
  destruct (has_allowed_extension name) eqn:E; [|reflexivity].
  apply allowed_extension_has_dot in E. congruence.
Qed.

Lemma image_refuses_name_without_dot_witness :
  validate_field [] (PostForm.image allowed_extensions)
    (PyFile (mkFile "png" 10))
  = Done ["Only " ++ Py.join ", " allowed_extensions ++ " files are allowed"].
Proof.
  apply (image_refuses_name_without_dot allowed_extensions [] "png" 10).
  - apply Permutation_refl.
  - reflexivity.
  - reflexivity.
Defined.

(** X11. On a submitted registration form the confirmation is compared with
    what the password field holds: a blank confirmation gets the required
    message, a confirmation equal to the password is valid (whether or not
    the password itself is), any other gets [Passwords must match.]; the
    [Invalid field name] error of [EqualTo] cannot occur. *)
Theorem confirm_password_errors (formdata : string -> list value) :
  getitem (bind RegisterForm.fields formdata) "password"
  = Some (process_formdata (formdata "password"))
  /\ In ("confirm_password",
         validate_field (bind RegisterForm.fields formdata)
           RegisterForm.confirm_password
           (process_formdata (formdata "confirm_password")))
        (validate_form RegisterForm.fields
           (bind RegisterForm.fields formdata))
  /\ validate_field (bind RegisterForm.fields formdata)
       RegisterForm.confirm_password
       (process_formdata (formdata "confirm_password"))
     = (if blank (process_formdata (formdata "confirm_password"))
        then Done ["This field is required."]
        else if value_eqb (process_formdata (formdata "confirm_password"))
                  (process_formdata (formdata "password"))
             then Done []
             else Done ["Passwords must match."]).
Proof.
  split; [reflexivity|]. split.
  - unfold validate_form, bind. simpl. auto 10.
  - unfold validate_field, RegisterForm.confirm_password. cbn [validators].
    destruct (blank (process_formdata (formdata "confirm_password"))) eqn:B.
    + now rewrite required_stops.
    + rewrite required_passes by exact B.
      unfold validate. cbn [_run_validation_chain call].
      change (getitem (bind RegisterForm.fields formdata) "password")
        with (Some (process_formdata (formdata "password"))).
      cbv beta iota.
      destruct (value_eqb (process_formdata (formdata "confirm_password"))
                  (process_formdata (formdata "password"))); reflexivity.
Qed.

(** X12. A field for which nothing was submitted holds [None]: the fields
    that start with [DataRequired] report its message and nothing else, and
    every other declared field (the image, the friend's user name, the
    profile texts) reports no error. *)
Theorem nothing_submitted
    (order : list string) (name : string) (f : Field) (fm : form) :
  In (name, f) (declared order) ->
  submit fm f []
  = match validators f with
    | DataRequired m :: _ => Done [or_default m "This field is required."]
    | _ => Done []
    end.
Proof.
  unfold declared. simpl. intros H.
  repeat (destruct H as [H | H]; [inversion H; subst; reflexivity|]).
  destruct H.
Qed.

Lemma nothing_submitted_witness :
  submit [] PostForm.content []
  = match validators PostForm.content with
    | DataRequired m :: _ => Done [or_default m "This field is required."]
    | _ => Done []
    end.
Proof.
  apply (nothing_submitted allowed_extensions "content" PostForm.content []).
  unfold declared; simpl; auto 20.
Defined.

(** X13. An upload sent under the name of a text field is not turned into a
    validation error: [DataRequired] accepts it, and the next rule raises an
    exception that the validation does not catch ([TypeError] from [Length]
    on the user-name, name and password fields, [AttributeError] from
    [validate_not_empty] on the post content and the comment).  The
    confirmation field has no such rule and reports an ordinary error. *)
Theorem upload_in_text_field (fm : form) (f : FileStorage) :
  Py.nonempty (filename f) = true ->
  validate_field fm LoginForm.username (PyFile f) = Escaped TypeError
  /\ validate_field fm LoginForm.password (PyFile f) = Escaped TypeError
  /\ validate_field fm RegisterForm.first_name (PyFile f) = Escaped TypeError
  /\ validate_field fm RegisterForm.last_name (PyFile f) = Escaped TypeError
  /\ validate_field fm RegisterForm.username (PyFile f) = Escaped TypeError
  /\ validate_field fm RegisterForm.password (PyFile f) = Escaped TypeError
  /\ validate_field fm PostForm.content (PyFile f) = Escaped AttributeError
  /\ validate_field fm CommentsForm.comment (PyFile f)
     = Escaped AttributeError
  /\ exists msg,
       validate_field fm RegisterForm.confirm_password (PyFile f)
       = Done [msg].
Proof.
  intros Hf.
  repeat (split; [unfold validate_field, validate; simpl; now rewrite Hf|]).
  unfold validate_field, validate. simpl. rewrite Hf. simpl.
  destruct (getitem fm "password"); eexists; reflexivity.
Qed.

Lemma upload_in_text_field_witness :
  validate_field [] LoginForm.username (PyFile (mkFile "a.png" 1))
  = Escaped TypeError
  /\ validate_field [] LoginForm.password (PyFile (mkFile "a.png" 1))
     = Escaped TypeError
  /\ validate_field [] RegisterForm.first_name (PyFile (mkFile "a.png" 1))
     = Escaped TypeError
  /\ validate_field [] RegisterForm.last_name (PyFile (mkFile "a.png" 1))
     = Escaped TypeError
  /\ validate_field [] RegisterForm.username (PyFile (mkFile "a.png" 1))
     = Escaped TypeError
  /\ validate_field [] RegisterForm.password (PyFile (mkFile "a.png" 1))
     = Escaped TypeError
  /\ validate_field [] PostForm.content (PyFile (mkFile "a.png" 1))
     = Escaped AttributeError
  /\ validate_field [] CommentsForm.comment (PyFile (mkFile "a.png" 1))
     = Escaped AttributeError
  /\ exists msg,
       validate_field [] RegisterForm.confirm_password
         (PyFile (mkFile "a.png" 1))
       = Done [msg].
Proof.
  apply (upload_in_text_field [] (mkFile "a.png" 1)). reflexivity.
Defined.

End FieldProperties.
